(** * fs-kernels / spawnteract: launching Jupyter kernels

    A shallow embedding of [packages/fs-kernels/src/spawnteract.ts]
    (functions [cleanup], [createConnectionInfo], [writeConnectionFile],
    [launchSpec], [launchSpecFromConnectionInfo] and [launch]) together
    with the properties the specification states about them.

    JavaScript objects used as dictionaries are finite maps, the file
    system, the console and the table of child processes are fields of an
    explicit [World], and every library the module calls into (portfinder,
    uuid, mkdirp, fs, execa, jupyter-paths, kernelspecs,
    enchannel-zmq-backend) is an oracle of the record [Collaborators]. *)

From stdpp Require Import gmap strings list fin_maps.
From Stdlib Require Import ZArith.

Local Open Scope Z_scope.
Local Open Scope string_scope.
Local Open Scope list_scope.

(** ** JavaScript values and errors *)

(** Errors that travel as thrown exceptions or promise rejections.
    [Error] and [TypeError] are the JavaScript classes of these names;
    [SystemError code] is the errno-style failure of an [fs] or OS call
    ([ENOENT], [EACCES], [EPERM], ...). *)
Inductive JSError :=
| Error (message : string)
| TypeError (message : string)
| SystemError (code : string).

(** An environment block: [process.env], [kernelSpec.env]. *)
Abbreviation Env := (gmap string string).

(** The values a spawn-options object holds. *)
Inductive Value :=
| VUndefined
| VBool (b : bool)
| VNum (z : Z)
| VStr (s : string)
| VEnv (e : Env).

(** A plain options object, keyed by property name. *)
Abbreviation Obj := (gmap string Value).

(** [Object.assign(target, ...sources)]: every own property of every
    source is copied onto the target, later sources overwriting earlier
    ones; an [undefined] source is skipped. *)
Definition Object_assign {V} (target : gmap string V)
    (sources : list (option (gmap string V))) : gmap string V :=
  foldl (fun acc src =>
           match src with
           | Some m => m ∪ acc
           | None => acc
           end) target sources.

(** [x !== false]. *)
Definition strict_neq_false (v : option Value) : bool :=
  match v with
  | Some (VBool false) => false
  | _ => true
  end.

(** ** Data model *)

(** Modelled from the spec: the [KernelSpec] interface of [./kernelspecs]
    is not part of the sources at hand; the fields are the ones the spec's
    data model lists (identity, argv, env, display metadata).  [env] is
    [None] when the property is undefined. *)
Record KernelSpec := {
  name : string;
  argv : list string;
  env : option Env;
  display_name : string
}.

(** Modelled from the spec: [KernelResource] of [./kernelspecs]; only its
    [spec] property is read by the launcher. *)
Record KernelResource := {
  resource_name : string;
  spec : KernelSpec
}.

(** [KernelResourceByName]: a plain object keyed by kernel name. *)
Abbreviation KernelResourceByName := (gmap string KernelResource).

(** [{ version: number } & JupyterConnectionInfo].  A port is [None] when
    [ports[i]] is [undefined] (index out of range). *)
Record ConnectionInfo := {
  version : Z;
  key : string;
  signature_scheme : string;
  transport : string;
  ip : string;
  hb_port : option Z;
  control_port : option Z;
  shell_port : option Z;
  stdin_port : option Z;
  iopub_port : option Z
}.

(** The argument of [writeConnectionFile]. *)
Record PortFinderOptions := {
  port : option Z;
  host : option string
}.

(** The handle [createMainChannel] resolves with. *)
Inductive Channels := MainChannel (id : nat).

(** The only closures the launcher registers on a child process are
    [(code, signal) => cleanup(connectionFile)] and
    [error => cleanup(connectionFile)]. *)
Inductive Listener := CleanupListener (connectionFile : string).

(** What [execa(file, args, options)] was called with, and the listeners
    added to the returned child with [.on(event, listener)]. *)
Record ChildProcess := {
  file : option string;
  args : list string;
  options : Obj;
  listeners : list (string * Listener)
}.

Record LaunchedKernel := {
  channels : Channels;
  config : ConnectionInfo;
  connectionFile : string;
  kernelSpec : KernelSpec;
  spawn : nat
}.

(** ** The world *)

(** Requests the launcher makes to its collaborators. *)
Inductive Request :=
| GetPorts (count : nat) (port : Z) (host : string)
| Spawn (pid : nat)
| OpenChannels (cfg : ConnectionInfo).

(** Completed mutations of the file system. *)
Inductive FsEffect :=
| MadeDir (dir : string)
| Wrote (path : string)
| Deleted (path : string).

Record World := {
  files : gmap string string;
  journal : list FsEffect;
  uuid_calls : nat;
  console : list JSError;
  uncaught : list JSError;
  requests : list Request;
  children : list ChildProcess
}.

(** Field updates. *)
Definition with_files (f : gmap string string → gmap string string) (w : World) : World :=
  {| files := f (files w); journal := journal w; uuid_calls := uuid_calls w;
     console := console w; uncaught := uncaught w; requests := requests w;
     children := children w |}.

Definition with_journal (f : list FsEffect → list FsEffect) (w : World) : World :=
  {| files := files w; journal := f (journal w); uuid_calls := uuid_calls w;
     console := console w; uncaught := uncaught w; requests := requests w;
     children := children w |}.

Definition with_uuid_calls (f : nat → nat) (w : World) : World :=
  {| files := files w; journal := journal w; uuid_calls := f (uuid_calls w);
     console := console w; uncaught := uncaught w; requests := requests w;
     children := children w |}.

Definition with_console (f : list JSError → list JSError) (w : World) : World :=
  {| files := files w; journal := journal w; uuid_calls := uuid_calls w;
     console := f (console w); uncaught := uncaught w; requests := requests w;
     children := children w |}.

Definition with_uncaught (f : list JSError → list JSError) (w : World) : World :=
  {| files := files w; journal := journal w; uuid_calls := uuid_calls w;
     console := console w; uncaught := f (uncaught w); requests := requests w;
     children := children w |}.

Definition with_requests (f : list Request → list Request) (w : World) : World :=
  {| files := files w; journal := journal w; uuid_calls := uuid_calls w;
     console := console w; uncaught := uncaught w; requests := f (requests w);
     children := children w |}.

Definition with_children (f : list ChildProcess → list ChildProcess) (w : World) : World :=
  {| files := files w; journal := journal w; uuid_calls := uuid_calls w;
     console := console w; uncaught := uncaught w; requests := requests w;
     children := f (children w) |}.

(** The collaborators, as oracles.
    - [process_env]: the ambient [process.env];
    - [uuid_v4 n]: what the [n]-th call of [uuid.v4()] returns;
    - [portfinder_getPorts count port host]: the ports found, or the error
      the callback reports;
    - [jp_runtimeDir]: the directory [jp.runtimeDir()] answers with, at
      each of its calls;
    - [fs_mkdirp_error], [fs_writeFile_error], [fs_unlink_error]: the
      failure, if any, the operating system reports for the path
      (deleting a missing file is [ENOENT] whatever the oracle says);
    - [fs_coerces_data]: whether [fs.writeFile] turns data that is neither
      a string nor a buffer into a string (Node before v14) or rejects it;
    - [enchannel_createMainChannel]: the outcome of opening the channels;
    - [kernelspecs_findAll]: the outcome of scanning for kernel specs. *)
Record Collaborators := {
  process_env : Env;
  uuid_v4 : nat → string;
  portfinder_getPorts : nat → Z → string → JSError + list Z;
  jp_runtimeDir : string;
  fs_mkdirp_error : string → option JSError;
  fs_writeFile_error : string → option JSError;
  fs_unlink_error : string → option JSError;
  fs_coerces_data : bool;
  enchannel_createMainChannel : ConnectionInfo → JSError + Channels;
  kernelspecs_findAll : JSError + KernelResourceByName
}.

(** ** Computations *)

(** How a call ends: a synchronous function returns or throws, an [async]
    function's promise resolves or rejects. *)
Inductive Outcome (A : Type) :=
| Resolved (a : A)
| Rejected (e : JSError).
Arguments Resolved {A} a.
Arguments Rejected {A} e.

Definition M (A : Type) : Type := World → Outcome A * World.

Definition ret {A} (a : A) : M A := fun w => (Resolved a, w).

Definition throw {A} (e : JSError) : M A := fun w => (Rejected e, w).

Definition bind {A B} (m : M A) (k : A → M B) : M B := fun w =>
  match m w with
  | (Resolved a, w') => k a w'
  | (Rejected e, w') => (Rejected e, w')
  end.

(** [try { m } catch (e) { handler e }]. *)
Definition try_catch {A} (m : M A) (handler : JSError → M A) : M A := fun w =>
  match m w with
  | (Resolved a, w') => (Resolved a, w')
  | (Rejected e, w') => handler e w'
  end.

Declare Scope js_scope.
Delimit Scope js_scope with js.
Notation "x <- m ;; k" := (bind m (fun x => k))
  (at level 100, m at next level, right associativity) : js_scope.
Notation "m ;;; k" := (bind m (fun _ => k))
  (at level 100, right associativity) : js_scope.
Local Open Scope js_scope.

(** A state change that cannot fail. *)
Definition modify (f : World → World) : M unit := fun w => (Resolved tt, f w).

(** A callback run by the event loop (a Node-style completion callback,
    an event listener): when it throws, nobody awaits it, and the error is
    an uncaught exception of the process rather than the outcome of any
    pending call. *)
Definition run_callback (cb : M unit) : M unit := fun w =>
  match cb w with
  | (Resolved _, w') => (Resolved tt, w')
  | (Rejected e, w') => (Resolved tt, with_uncaught (fun l => l ++ [e]) w')
  end.

(** [console.log(error)]. *)
Definition console_log (e : JSError) : M unit :=
  modify (with_console (fun l => l ++ [e])).

Definition request (r : Request) : M unit :=
  modify (with_requests (fun l => l ++ [r])).

Definition record_fs (x : FsEffect) : M unit :=
  modify (with_journal (fun l => l ++ [x])).

(** [a || d] on an optional number: [undefined] and [0] are falsy. *)
Definition or_number (a : option Z) (d : Z) : Z :=
  match a with
  | Some z => if Z.eqb z 0 then d else z
  | None => d
  end.

(** [a || d] on an optional string: [undefined] and the empty string are
    falsy. *)
Definition or_string (a : option string) (d : string) : string :=
  match a with
  | Some "" => d
  | Some s => s
  | None => d
  end.

(** [path.join(dir, name)] for a directory and a file name (the
    normalisation of the directory part is left to [jp.runtimeDir]). *)
Definition path_join (dir name : string) : string := dir +:+ "/" +:+ name.

(** What [fs.writeFile] is handed as data. *)
Inductive FileData :=
| DataString (s : string)
| DataObject (o : ConnectionInfo).

(** The names every plain object inherits from [Object.prototype]. *)
Definition Object_prototype_keys : list string :=
  [ "constructor"; "hasOwnProperty"; "isPrototypeOf";
    "propertyIsEnumerable"; "toLocaleString"; "toString"; "valueOf";
    "__proto__"; "__defineGetter__"; "__defineSetter__";
    "__lookupGetter__"; "__lookupSetter__" ].

(** The result of [o[k]] on a plain object: an own property, a member of
    [Object.prototype] found along the prototype chain (a function or
    object, hence truthy, with no [spec] property), or [undefined]. *)
Inductive Property (A : Type) :=
| Own (a : A)
| Inherited
| Undefined.
Arguments Own {A} a.
Arguments Inherited {A}.
Arguments Undefined {A}.

Definition get_property {A} (o : gmap string A) (k : string) : Property A :=
  match o !! k with
  | Some a => Own a
  | None => if bool_decide (k ∈ Object_prototype_keys) then Inherited else Undefined
  end.

Section Launcher.

Context (ext : Collaborators).

(** [uuid.v4()]. *)
Definition uuid : M string := fun w =>
  (Resolved (uuid_v4 ext (uuid_calls w)), with_uuid_calls S w).

(** [fs.unlinkSync(path)]. *)
Definition unlinkSync (path : string) : M unit := fun w =>
  match files w !! path with
  | None => (Rejected (SystemError "ENOENT"), w)
  | Some _ =>
      match fs_unlink_error ext path with
      | Some e => (Rejected e, w)
      | None =>
          (Resolved tt,
           with_journal (fun l => l ++ [Deleted path])
             (with_files (delete path) w))
      end
  end.

(** [export function cleanup(connectionFile)]:
    [try { fs.unlinkSync(connectionFile); } catch (e) { return; }] *)
Definition cleanup (connectionFile : string) : M unit :=
  try_catch (unlinkSync connectionFile) (fun e => ret tt).

(** [function createConnectionInfo(ports)]. *)
Definition createConnectionInfo (ports : list Z) : M ConnectionInfo :=
  k <- uuid ;;
  ret {| version := 5;
         key := k;
         signature_scheme := "hmac-sha256";
         transport := "tcp";
         ip := "127.0.0.1";
         hb_port := ports !! 0%nat;
         control_port := ports !! 1%nat;
         shell_port := ports !! 2%nat;
         stdin_port := ports !! 3%nat;
         iopub_port := ports !! 4%nat |}.

(** [util.promisify(_getPorts)(count, options)]. *)
Definition getPorts (count : nat) (port : Z) (host : string) : M (list Z) :=
  request (GetPorts count port host) ;;;
  match portfinder_getPorts ext count port host with
  | inl e => throw e
  | inr ports => ret ports
  end.

(** [mkdirp(dir, callback)]: the call returns at once; the callback is
    run later by the event loop with the error, if any. *)
Definition mkdirp (dir : string) (callback : option JSError → M unit) : M unit :=
  match fs_mkdirp_error ext dir with
  | Some e => run_callback (callback (Some e))
  | None => record_fs (MadeDir dir) ;;; run_callback (callback None)
  end.

(** The text [fs.writeFile] stores for its data argument.  A string is
    stored as it is.  An object is neither a string nor a buffer: a Node
    that coerces stores [String(data)], which for a plain object is the
    text [[object Object]]; a Node that does not coerce rejects the call. *)
Definition data_text (data : FileData) : option string :=
  match data with
  | DataString s => Some s
  | DataObject _ => if fs_coerces_data ext then Some "[object Object]" else None
  end.

(** [util.promisify(fs.writeFile)(path, data)]. *)
Definition writeFile (path : string) (data : FileData) : M unit :=
  match data_text data with
  | None => throw (TypeError "ERR_INVALID_ARG_TYPE")
  | Some text =>
      match fs_writeFile_error ext path with
      | Some e => throw e
      | None =>
          modify (with_files (insert path text)) ;;;
          record_fs (Wrote path)
      end
  end.

(** [async function writeConnectionFile(portFinderOptions?)]. *)
Definition writeConnectionFile (portFinderOptions : option PortFinderOptions)
    : M (ConnectionInfo * string) :=
  let options_port := or_number (portFinderOptions ≫= port) 9000 in
  let options_host := or_string (portFinderOptions ≫= host) "127.0.0.1" in
  try_catch
    (ports <- getPorts 5 options_port options_host ;;
     let runtimeDir := jp_runtimeDir ext in
     mkdirp runtimeDir
       (fun error => match error with
                     | Some e => throw e
                     | None => ret tt
                     end) ;;;
     config <- createConnectionInfo ports ;;
     u <- uuid ;;
     let connectionFile :=
       path_join (jp_runtimeDir ext) ("kernel-" +:+ u +:+ ".json") in
     writeFile connectionFile (DataObject config) ;;;
     ret (config, connectionFile))
    (fun error => console_log error ;;; throw error).

(** [execa(file, args, options)]: the child is created and handed back;
    a failure to start it is reported later through its [error] event. *)
Definition execa (file : option string) (args : list string) (options : Obj)
    : M nat := fun w =>
  let pid := length (children w) in
  (request (Spawn pid) ;;;
   modify (with_children (fun l =>
     l ++ [{| file := file; args := args; options := options;
              listeners := [] |}])) ;;;
   ret pid) w.

(** [child.on(event, listener)]. *)
Definition on (pid : nat) (event : string) (listener : Listener) : M unit :=
  modify (with_children (alter (fun c =>
    {| file := file c; args := args c; options := options c;
       listeners := listeners c ++ [(event, listener)] |}) pid)).

(** [createMainChannel(config)]. *)
Definition createMainChannel (config : ConnectionInfo) : M Channels :=
  request (OpenChannels config) ;;;
  match enchannel_createMainChannel ext config with
  | inl e => throw e
  | inr c => ret c
  end.

(** [kernelSpec.argv.map(x => x === "{connection_file}" ? connectionFile : x)]. *)
Definition expand_argv (connectionFile : string) (argv : list string) : list string :=
  (fun x => if String.eqb x "{connection_file}" then connectionFile else x) <$> argv.

(** [{ cleanupConnectionFile: true, stdio: "ignore" }]. *)
Definition defaultSpawnOptions : Obj :=
  {[ "cleanupConnectionFile" := VBool true; "stdio" := VStr "ignore" ]}.

(** [Object.assign({}, defaultSpawnOptions, { env }, spawnOptions)] with
    [env = Object.assign({}, process.env, kernelSpec.env)]. *)
Definition fullSpawnOptions (kernelSpec : KernelSpec) (spawnOptions : option Obj) : Obj :=
  let env := Object_assign ∅ [Some (process_env ext); env kernelSpec] in
  Object_assign ∅
    [Some defaultSpawnOptions; Some {[ "env" := VEnv env ]}; spawnOptions].

(** [async function launchSpecFromConnectionInfo(kernelSpec, config,
    connectionFile, spawnOptions?)].  The kernel spec is [None] when the
    caller passes [undefined], on which reading [.argv] throws. *)
Definition launchSpecFromConnectionInfo (kernelSpec : option KernelSpec)
    (config : ConnectionInfo) (connectionFile : string)
    (spawnOptions : option Obj) : M LaunchedKernel :=
  match kernelSpec with
  | None => throw (TypeError "Cannot read property 'argv' of undefined")
  | Some kernelSpec =>
      let argv := expand_argv connectionFile (argv kernelSpec) in
      let fullSpawnOptions := fullSpawnOptions kernelSpec spawnOptions in
      runningKernel <- execa (argv !! 0%nat) (drop 1 argv) fullSpawnOptions ;;
      (if strict_neq_false (fullSpawnOptions !! "cleanupConnectionFile")
       then
         on runningKernel "exit" (CleanupListener connectionFile) ;;;
         on runningKernel "error" (CleanupListener connectionFile)
       else ret tt) ;;;
      channels <- createMainChannel config ;;
      ret {| channels := channels; config := config;
             connectionFile := connectionFile; kernelSpec := kernelSpec;
             spawn := runningKernel |}
  end.

(** [async function launchSpec(kernelSpec, spawnOptions?)]. *)
Definition launchSpec (kernelSpec : option KernelSpec) (spawnOptions : option Obj)
    : M LaunchedKernel :=
  info <- writeConnectionFile None ;;
  launchSpecFromConnectionInfo kernelSpec info.1 info.2 spawnOptions.

(** [findAll()]. *)
Definition findAll : M KernelResourceByName :=
  match kernelspecs_findAll ext with
  | inl e => throw e
  | inr sp => ret sp
  end.

(** The body of [launch] once [specs] is an object. *)
Definition launch_with (kernelName : string) (spawnOptions : option Obj)
    (specs : KernelResourceByName) : M LaunchedKernel :=
  match get_property specs kernelName with
  | Undefined => throw (Error ("No spec available for " +:+ kernelName))
  | Own resource => launchSpec (Some (spec resource)) spawnOptions
  | Inherited => launchSpec None spawnOptions
  end.

(** [async function launch(kernelName, spawnOptions?, specs?)]: without
    [specs] it awaits [findAll()] and calls itself with the mapping found,
    which is an object and so takes the other branch. *)
Definition launch (kernelName : string) (spawnOptions : option Obj)
    (specs : option KernelResourceByName) : M LaunchedKernel :=
  match specs with
  | None => sp <- findAll ;; launch_with kernelName spawnOptions sp
  | Some sp => launch_with kernelName spawnOptions sp
  end.

(** A listener called by the event emitter. *)
Definition run_listener (l : Listener) : M unit :=
  match l with
  | CleanupListener connectionFile => run_callback (cleanup connectionFile)
  end.

(** [child.emit(event)]: every listener registered for the event runs, in
    the order of registration.  The listeners of a child are the ones
    this module registered; what [execa] itself listens to is its own
    business and touches neither the files nor the console. *)
Definition emit (pid : nat) (event : string) : M unit := fun w =>
  match children w !! pid with
  | None => (Resolved tt, w)
  | Some c =>
      foldr (fun '(ev, l) k =>
               if String.eqb ev event then (run_listener l ;;; k) else k)
        (ret tt) (listeners c) w
  end.

(** A child process emits a sequence of events. *)
Fixpoint emit_all (pid : nat) (events : list string) : M unit :=
  match events with
  | [] => ret tt
  | ev :: rest => emit pid ev ;;; emit_all pid rest
  end.

End Launcher.

(** ** Concrete collaborators and worlds used in examples *)

(** A fresh process: no file, nothing logged, no child. *)
Definition empty_world : World :=
  {| files := ∅; journal := []; uuid_calls := 0; console := [];
     uncaught := []; requests := []; children := [] |}.

(** A machine on which everything works: ports 9000 to 9004 are free, the
    runtime directory can be created and written to, files can be
    deleted, and the kernel answers on its channels. *)
Definition healthy : Collaborators :=
  {| process_env := {[ "PATH" := "/usr/bin" ]};
     uuid_v4 := fun n =>
       match n with
       | O => "2f0c3b1e-key"
       | 1%nat => "7a9d4c55-file"
       | _ => "c41e8e0a-more"
       end;
     portfinder_getPorts := fun _ _ _ => inr [9000; 9001; 9002; 9003; 9004];
     jp_runtimeDir := "/run/user/1000/jupyter";
     fs_mkdirp_error := fun _ => None;
     fs_writeFile_error := fun _ => None;
     fs_unlink_error := fun _ => None;
     fs_coerces_data := true;
     enchannel_createMainChannel := fun _ => inr (MainChannel 0);
     kernelspecs_findAll := inr ∅ |}.

(** The same machine with a runtime directory that cannot be created:
    [mkdirp] reports [EACCES] and the write that follows finds no
    directory. *)
Definition no_runtime_dir : Collaborators :=
  {| process_env := process_env healthy;
     uuid_v4 := uuid_v4 healthy;
     portfinder_getPorts := portfinder_getPorts healthy;
     jp_runtimeDir := jp_runtimeDir healthy;
     fs_mkdirp_error := fun _ => Some (SystemError "EACCES");
     fs_writeFile_error := fun _ => Some (SystemError "ENOENT");
     fs_unlink_error := fun _ => None;
     fs_coerces_data := true;
     enchannel_createMainChannel := enchannel_createMainChannel healthy;
     kernelspecs_findAll := kernelspecs_findAll healthy |}.

(** The same machine on which deleting a file is not permitted. *)
Definition read_only : Collaborators :=
  {| process_env := process_env healthy;
     uuid_v4 := uuid_v4 healthy;
     portfinder_getPorts := portfinder_getPorts healthy;
     jp_runtimeDir := jp_runtimeDir healthy;
     fs_mkdirp_error := fs_mkdirp_error healthy;
     fs_writeFile_error := fs_writeFile_error healthy;
     fs_unlink_error := fun _ => Some (SystemError "EPERM");
     fs_coerces_data := true;
     enchannel_createMainChannel := enchannel_createMainChannel healthy;
     kernelspecs_findAll := kernelspecs_findAll healthy |}.

(** A world holding one connection file. *)
Definition one_file : World :=
  with_files (insert "/run/user/1000/jupyter/kernel-1.json" "{}") empty_world.

(** The kernel spec of an IPython kernel. *)
Definition python3 : KernelSpec :=
  {| name := "python3";
     argv := ["python"; "-m"; "ipykernel_launcher"; "-f"; "{connection_file}"];
     env := Some {[ "PYTHONUNBUFFERED" := "1" ]};
     display_name := "Python 3" |}.

(** ** Observations on worlds *)

Global Instance FsEffect_eq_dec : EqDecision FsEffect.
Proof. solve_decision. Defined.

(** How many times [path] has been deleted so far. *)
Definition deletions (path : string) (w : World) : nat :=
  length (filter (fun x => x = Deleted path) (journal w)).

(** The arguments of the port probes among a list of requests. *)
Definition port_probes (rs : list Request) : list (nat * Z * string) :=
  omap (fun r => match r with
                 | GetPorts n p h => Some (n, p, h)
                 | _ => None
                 end) rs.

(** The child a call of [launchSpecFromConnectionInfo] spawns: the entry
    the call adds to the table of children. *)
Definition spawned_child (ext : Collaborators) (kernelSpec : KernelSpec)
    (config : ConnectionInfo) (connectionFile : string)
    (spawnOptions : option Obj) (w : World) : option ChildProcess :=
  children
    (launchSpecFromConnectionInfo ext (Some kernelSpec) config connectionFile
       spawnOptions w).2 !! length (children w).

(** The command line a child was spawned with: [argv[0]] followed by
    [argv.slice(1)]. *)
Definition command_line (c : ChildProcess) : list string :=
  from_option (fun f => [f]) [] (file c) ++ args c.

(** The listeners [launchSpecFromConnectionInfo] registers. *)
Definition cleanup_listeners (fullSpawnOptions : Obj) (connectionFile : string)
    : list (string * Listener) :=
  if strict_neq_false (fullSpawnOptions !! "cleanupConnectionFile")
  then [("exit", CleanupListener connectionFile);
        ("error", CleanupListener connectionFile)]
  else [].

(** The child [launchSpecFromConnectionInfo] leaves in the table. *)
Definition child_record (ext : Collaborators) (kernelSpec : KernelSpec) (connectionFile : string)
    (spawnOptions : option Obj) : ChildProcess :=
  let argv := expand_argv connectionFile (argv kernelSpec) in
  let full := fullSpawnOptions ext kernelSpec spawnOptions in
  {| file := argv !! 0%nat; args := drop 1 argv; options := full;
     listeners := cleanup_listeners full connectionFile |}.

(** The collaborators [ext] on a machine where the runtime directory can
    be created. *)
Definition directory_created (ext : Collaborators) : Collaborators :=
  {| process_env := process_env ext;
     uuid_v4 := uuid_v4 ext;
     portfinder_getPorts := portfinder_getPorts ext;
     jp_runtimeDir := jp_runtimeDir ext;
     fs_mkdirp_error := fun _ => None;
     fs_writeFile_error := fs_writeFile_error ext;
     fs_unlink_error := fs_unlink_error ext;
     fs_coerces_data := fs_coerces_data ext;
     enchannel_createMainChannel := enchannel_createMainChannel ext;
     kernelspecs_findAll := kernelspecs_findAll ext |}.

(** A descriptor as [createConnectionInfo] builds them. *)
Definition example_config : ConnectionInfo :=
  {| version := 5; key := "2f0c3b1e-key"; signature_scheme := "hmac-sha256";
     transport := "tcp"; ip := "127.0.0.1";
     hb_port := Some 9000; control_port := Some 9001;
     shell_port := Some 9002; stdin_port := Some 9003;
     iopub_port := Some 9004 |}.

(** What a launch of [python3] on the [healthy] machine resolves with. *)
Definition example_launch : LaunchedKernel :=
  {| channels := MainChannel 0;
     config := example_config;
     connectionFile := "/run/user/1000/jupyter/kernel-7a9d4c55-file.json";
     kernelSpec := python3;
     spawn := 0 |}.

(** The path of a connection file. *)
Definition example_path : string := "/run/user/1000/jupyter/kernel-1.json".

(** A machine on which no free port is found. *)
Definition no_ports : Collaborators :=
  {| process_env := process_env healthy;
     uuid_v4 := uuid_v4 healthy;
     portfinder_getPorts := fun _ _ _ => inl (Error "No open ports available");
     jp_runtimeDir := jp_runtimeDir healthy;
     fs_mkdirp_error := fs_mkdirp_error healthy;
     fs_writeFile_error := fs_writeFile_error healthy;
     fs_unlink_error := fs_unlink_error healthy;
     fs_coerces_data := true;
     enchannel_createMainChannel := enchannel_createMainChannel healthy;
     kernelspecs_findAll := kernelspecs_findAll healthy |}.

(** A machine whose runtime directory has no room left for a file. *)
Definition disk_full : Collaborators :=
  {| process_env := process_env healthy;
     uuid_v4 := uuid_v4 healthy;
     portfinder_getPorts := portfinder_getPorts healthy;
     jp_runtimeDir := jp_runtimeDir healthy;
     fs_mkdirp_error := fs_mkdirp_error healthy;
     fs_writeFile_error := fun _ => Some (SystemError "ENOSPC");
     fs_unlink_error := fs_unlink_error healthy;
     fs_coerces_data := true;
     enchannel_createMainChannel := enchannel_createMainChannel healthy;
     kernelspecs_findAll := kernelspecs_findAll healthy |}.

(** A machine on which the kernel does not answer on its channels, and
    on which the scan for kernel specs fails. *)
Definition no_channels : Collaborators :=
  {| process_env := process_env healthy;
     uuid_v4 := uuid_v4 healthy;
     portfinder_getPorts := portfinder_getPorts healthy;
     jp_runtimeDir := jp_runtimeDir healthy;
     fs_mkdirp_error := fs_mkdirp_error healthy;
     fs_writeFile_error := fs_writeFile_error healthy;
     fs_unlink_error := fs_unlink_error healthy;
     fs_coerces_data := true;
     enchannel_createMainChannel := fun _ => inl (Error "connection refused");
     kernelspecs_findAll := inl (SystemError "EACCES") |}.

(** The descriptor [createConnectionInfo] builds from [ports] with the
    session key [k]. *)
Definition descriptor (k : string) (ports : list Z) : ConnectionInfo :=
  {| version := 5; key := k; signature_scheme := "hmac-sha256";
     transport := "tcp"; ip := "127.0.0.1";
     hb_port := ports !! 0%nat; control_port := ports !! 1%nat;
     shell_port := ports !! 2%nat; stdin_port := ports !! 3%nat;
     iopub_port := ports !! 4%nat |}.


(** A kernel spec that passes the connection file inside a longer token,
    and one whose argv is empty. *)
Definition node_kernel : KernelSpec :=
  {| name := "javascript";
     argv := ["node"; "kernel.js"; "--connection={connection_file}"];
     env := None;
     display_name := "JavaScript" |}.


(** ** The editor's line endings

    [normalizeLineEndings] of the CodeMirror editor component.  A string
    is a sequence of characters, among them carriage return and line
    feed. *)

(** Carriage return, character 13, and line feed, character 10 (bits
    from the least significant one). *)
Definition CR : Ascii.ascii :=
  Ascii.Ascii true false true true false false false false.
Definition LF : Ascii.ascii :=
  Ascii.Ascii false true false true false false false false.

(** [str.replace(/\r\n|\r/g, "\n")]: scanning from the left, a carriage
    return followed by a line feed, or else a carriage return alone, is
    replaced by one line feed. *)
Fixpoint replace_line_endings (str : string) : string :=
  match str with
  | EmptyString => EmptyString
  | String c rest =>
      if Ascii.eqb c CR then
        match rest with
        | String c' rest' =>
            if Ascii.eqb c' LF
            then String LF (replace_line_endings rest')
            else String LF (replace_line_endings rest)
        | EmptyString => String LF EmptyString
        end
      else String c (replace_line_endings rest)
  end.

(** [function normalizeLineEndings(str)]: a falsy string (the empty one)
    is handed back as it is. *)
Definition normalizeLineEndings (str : string) : string :=
  match str with
  | EmptyString => str
  | _ => replace_line_endings str
  end.

(** Whether [c] occurs in [str]. *)
Fixpoint occurs (c : Ascii.ascii) (str : string) : bool :=
  match str with
  | EmptyString => false
  | String c' rest => Ascii.eqb c' c || occurs c rest
  end.

(** Whether the last character of [str] is a carriage return. *)
Fixpoint ends_with_CR (str : string) : bool :=
  match str with
  | EmptyString => false
  | String c EmptyString => Ascii.eqb c CR
  | String _ rest => ends_with_CR rest
  end.

(** Whether the first character of [str] is a line feed. *)
Definition starts_with_LF (str : string) : bool :=
  match str with
  | String c _ => Ascii.eqb c LF
  | EmptyString => false
  end.

(** ** The editor's completion requests

    The fields of the CodeMirror editor component that [hint] and the
    [Ctrl-Space] key binding read and write: the flag
    [debounceNextCompletionRequest] and the events sent to
    [completionSubject], each with its [debounce] flag, oldest first. *)
Record EditorFields := {
  debounceNextCompletionRequest : bool;
  completionSubject : list bool
}.

(** The fields as the constructor leaves them. *)
Definition constructed : EditorFields :=
  {| debounceNextCompletionRequest := true; completionSubject := [] |}.

(** [hint(editor, callback)], given the props [completion] and whether
    [channels] is set. *)
Definition hint (completion channels : bool) (this : EditorFields) : EditorFields :=
  let debounceThisCompletionRequest := debounceNextCompletionRequest this in
  {| debounceNextCompletionRequest := true;
     completionSubject :=
       if completion && channels
       then completionSubject this ++ [debounceThisCompletionRequest]
       else completionSubject this |}.

(** The [Ctrl-Space] key binding, up to its call of
    [editor.execCommand("autocomplete")]. *)
Definition ctrl_space (this : EditorFields) : EditorFields :=
  {| debounceNextCompletionRequest := false;
     completionSubject := completionSubject this |}.

(** What happens to the component, in order: CodeMirror asks for hints,
    or the user presses [Ctrl-Space]. *)
Inductive EditorStep :=
| AskHint (completion channels : bool)
| PressCtrlSpace.

Global Instance EditorStep_eq_dec : EqDecision EditorStep.
Proof. solve_decision. Defined.

Definition editor_step (this : EditorFields) (s : EditorStep) : EditorFields :=
  match s with
  | AskHint completion channels => hint completion channels this
  | PressCtrlSpace => ctrl_space this
  end.

Definition editor_run (steps : list EditorStep) : EditorFields :=
  foldl editor_step constructed steps.

(** The number of events sent without debounce, and the number of
    presses of [Ctrl-Space]. *)
Definition immediate_events (this : EditorFields) : nat :=
  length (filter (fun d => d = false) (completionSubject this)).

Definition presses (steps : list EditorStep) : nat :=
  length (filter (fun s => s = PressCtrlSpace) steps).

(** ** Properties *)

Ltac run :=
  unfold cleanup, unlinkSync, try_catch, run_callback, console_log, request,
    record_fs, modify, bind, ret, throw in *; simpl in *.

Ltac run_write :=
  unfold writeConnectionFile, getPorts, mkdirp, createConnectionInfo, uuid,
    writeFile, data_text in *; run.

Section Cleanup.

Context (ext : Collaborators).

(** What [cleanup] does, by cases on the file and on the operating
    system's answer. *)
Lemma cleanup_run connectionFile w :
  cleanup ext connectionFile w =
  (Resolved tt,
   match files w !! connectionFile, fs_unlink_error ext connectionFile with
   | Some _, None =>
       with_journal (fun l => l ++ [Deleted connectionFile])
         (with_files (delete connectionFile) w)
   | _, _ => w
   end).
Proof.
  run. destruct (files w !! connectionFile); [|done].
  by destruct (fs_unlink_error ext connectionFile).
Qed.

Lemma cleanup_missing connectionFile w :
  files w !! connectionFile = None →
  cleanup ext connectionFile w = (Resolved tt, w).
Proof. intros H. by rewrite cleanup_run, H. Qed.

Lemma deletions_app path w x :
  deletions path (with_journal (fun l => l ++ [x]) w) =
  (deletions path w + (if decide (x = Deleted path) then 1 else 0))%nat.
Proof.
  unfold deletions. simpl. rewrite filter_app, length_app. f_equal.
  rewrite filter_cons, filter_nil. by case_decide.
Qed.

(** C6: invoking [cleanup] twice on a connection file never raises (both
    invocations return normally), the file is deleted at most once over
    the two invocations, and when the file is gone after the first
    invocation the second one changes nothing. *)
Theorem cleanup_twice connectionFile w :
  let first := cleanup ext connectionFile w in
  let second := cleanup ext connectionFile first.2 in
  first.1 = Resolved tt ∧
  second.1 = Resolved tt ∧
  (deletions connectionFile second.2 ≤ S (deletions connectionFile w))%nat ∧
  uncaught second.2 = uncaught w ∧
  (files first.2 !! connectionFile = None → second = (Resolved tt, first.2)).
Proof.
  cbv zeta. rewrite !cleanup_run. simpl.
  split; [done|]. split; [done|].
  destruct (files w !! connectionFile) as [text|] eqn:Hf;
    [destruct (fs_unlink_error ext connectionFile) as [e|] eqn:He|]; simpl.
  - rewrite Hf. split; [lia|]. done.
  - rewrite lookup_delete_eq, deletions_app, decide_True by done.
    unfold deletions. simpl. split; [lia|]. done.
  - rewrite Hf. split; [lia|]. done.
Qed.

(** C7 as the code has it: [cleanup] treats every failure of the deletion
    alike.  Whatever [unlinkSync] throws, the call returns normally,
    prints nothing on the console and raises nothing; the file system
    changes only when the deletion succeeds. *)
Theorem cleanup_swallows_every_error connectionFile w :
  let after := cleanup ext connectionFile w in
  after.1 = Resolved tt ∧
  console after.2 = console w ∧
  uncaught after.2 = uncaught w ∧
  (∀ e, (unlinkSync ext connectionFile w).1 = Rejected e → after.2 = w).
Proof.
  cbv zeta. rewrite cleanup_run. simpl. split; [done|].
  unfold unlinkSync.
  destruct (files w !! connectionFile);
    [destruct (fs_unlink_error ext connectionFile)|]; simpl; done.
Qed.

End Cleanup.

(** C6, on an example: the file is there, the child emits [error] and
    then [exit]; the first cleanup deletes the file, the second finds it
    gone and does nothing. *)
Lemma cleanup_twice_example :
  let path := "/run/user/1000/jupyter/kernel-1.json" in
  let first := cleanup healthy path one_file in
  let second := cleanup healthy path first.2 in
  files first.2 !! path = None ∧
  second = (Resolved tt, first.2) ∧
  deletions path second.2 = 1%nat.
Proof.
  cbv zeta.
  destruct (cleanup_twice healthy "/run/user/1000/jupyter/kernel-1.json" one_file)
    as (_ & _ & _ & _ & Hnoop).
  assert (Hgone : files (cleanup healthy "/run/user/1000/jupyter/kernel-1.json"
                           one_file).2
                  !! "/run/user/1000/jupyter/kernel-1.json" = None)
    by reflexivity.
  split; [exact Hgone|]. split; [exact (Hnoop Hgone)|]. reflexivity.
Defined.

(** C7 as the spec states it fails: on a machine that refuses the
    deletion with [EPERM], which is not the already-deleted error, the
    error [cleanup] swallows is not logged: the console stays empty. *)
Lemma cleanup_does_not_log_other_errors :
  let path := "/run/user/1000/jupyter/kernel-1.json" in
  (unlinkSync read_only path one_file).1 = Rejected (SystemError "EPERM") ∧
  SystemError "EPERM" ≠ SystemError "ENOENT" ∧
  (SystemError "EPERM" ∉ console (cleanup read_only path one_file).2) ∧
  console (cleanup read_only path one_file).2 = [].
Proof.
  cbv zeta. split; [reflexivity|]. split; [discriminate|].
  assert (H : console (cleanup read_only "/run/user/1000/jupyter/kernel-1.json"
                         one_file).2 = []) by reflexivity.
  rewrite H. split; [apply not_elem_of_nil | done].
Qed.

(** C7, on the same example: the amended statement applied to the
    refused deletion. *)
Lemma cleanup_swallows_every_error_example :
  let path := "/run/user/1000/jupyter/kernel-1.json" in
  (cleanup read_only path one_file).1 = Resolved tt ∧
  (cleanup read_only path one_file).2 = one_file.
Proof.
  cbv zeta.
  destruct (cleanup_swallows_every_error read_only
              "/run/user/1000/jupyter/kernel-1.json" one_file)
    as (Hret & _ & _ & Hsame).
  split; [exact Hret|]. apply (Hsame (SystemError "EPERM")). reflexivity.
Defined.

Section ConnectionFile.

Context (ext : Collaborators).

(** C5: the descriptor built from five ports has the fixed protocol
    fields, takes its key from a call of [uuid.v4()] made for this
    descriptor (the generator advances by one), and assigns the ports by
    position. *)
Theorem createConnectionInfo_fields (p0 p1 p2 p3 p4 : Z) w :
  let built := createConnectionInfo ext [p0; p1; p2; p3; p4] w in
  built.1 =
    Resolved {| version := 5;
                key := uuid_v4 ext (uuid_calls w);
                signature_scheme := "hmac-sha256";
                transport := "tcp";
                ip := "127.0.0.1";
                hb_port := Some p0;
                control_port := Some p1;
                shell_port := Some p2;
                stdin_port := Some p3;
                iopub_port := Some p4 |} ∧
  uuid_calls built.2 = S (uuid_calls w).
Proof. cbv zeta. split; reflexivity. Qed.

(** The text of the connection file after a successful call: the object
    was handed to [fs.writeFile] as it is, so what is stored is the
    coercion of an object to a string, whatever the descriptor holds; a
    rejected call leaves the files as they were. *)
Lemma writeConnectionFile_text portFinderOptions w :
  match writeConnectionFile ext portFinderOptions w with
  | (Resolved (config, connectionFile), w') =>
      files w' !! connectionFile = Some "[object Object]"
  | (Rejected _, w') => files w' = files w
  end.
Proof.
  run_write.
  destruct (portfinder_getPorts ext _ _ _) as [e|ports]; simpl; [done|].
  destruct (fs_mkdirp_error ext _) as [e|]; simpl;
    (destruct (fs_coerces_data ext); simpl; [|done]);
    (destruct (fs_writeFile_error ext _) as [e'|]; simpl; [done|]);
    apply lookup_insert_eq.
Qed.

(** C1, what the code does instead: whenever [writeConnectionFile]
    resolves, the connection file holds the text [[object Object]],
    independently of the descriptor, and not a serialization of it; when
    it rejects, no file has been written. *)
Theorem connection_file_holds_object_text portFinderOptions w :
  match writeConnectionFile ext portFinderOptions w with
  | (Resolved (config, connectionFile), w') =>
      files w' !! connectionFile = Some "[object Object]"
  | (Rejected _, w') => files w' = files w
  end.
Proof.
  run_write.
  destruct (portfinder_getPorts ext _ _ _) as [e|ports]; simpl; [done|].
  destruct (fs_coerces_data ext) eqn:Hcoerce.
  - destruct (fs_mkdirp_error ext _) as [e|]; simpl;
      (destruct (fs_writeFile_error ext _) as [e'|]; simpl; [done|]);
      apply lookup_insert_eq.
  - by destruct (fs_mkdirp_error ext _) as [e|].
Qed.

End ConnectionFile.

Section ConnectionFileErrors.

Context (ext : Collaborators).

(** The part of C3 that holds: when the file cannot be written, the call
    rejects with the error of the write, after logging it. *)
Lemma writeConnectionFile_write_error portFinderOptions w ports e :
  portfinder_getPorts ext 5 (or_number (portFinderOptions ≫= port) 9000)
    (or_string (portFinderOptions ≫= host) "127.0.0.1") = inr ports →
  fs_coerces_data ext = true →
  fs_writeFile_error ext
    (path_join (jp_runtimeDir ext)
       ("kernel-" +:+ uuid_v4 ext (S (uuid_calls w)) +:+ ".json")) = Some e →
  (writeConnectionFile ext portFinderOptions w).1 = Rejected e ∧
  console (writeConnectionFile ext portFinderOptions w).2 = console w ++ [e].
Proof.
  intros Hports Hcoerce Hwrite. run_write. rewrite Hports. simpl.
  destruct (fs_mkdirp_error ext _); simpl; rewrite Hcoerce; simpl;
    rewrite Hwrite; done.
Qed.

(** The outcome of [writeConnectionFile] does not depend on whether the
    runtime directory could be created. *)
Lemma writeConnectionFile_outcome_ignores_mkdirp portFinderOptions w :
  (writeConnectionFile ext portFinderOptions w).1 =
  (writeConnectionFile (directory_created ext) portFinderOptions w).1.
Proof.
  run_write.
  destruct (portfinder_getPorts ext _ _ _) as [e|ports]; simpl; [done|].
  destruct (fs_mkdirp_error ext _) as [e|]; simpl;
    (destruct (fs_coerces_data ext); simpl; [|done]);
    destruct (fs_writeFile_error ext _) as [e'|]; done.
Qed.

(** C3, what the code does when the runtime directory cannot be created:
    the error of [mkdirp] is thrown from inside the completion callback,
    so it becomes an uncaught exception of the process, and the promise
    of [writeConnectionFile] settles exactly as it would have on a
    machine where the directory was created. *)
Theorem mkdirp_error_escapes_the_promise portFinderOptions w ports e :
  portfinder_getPorts ext 5 (or_number (portFinderOptions ≫= port) 9000)
    (or_string (portFinderOptions ≫= host) "127.0.0.1") = inr ports →
  fs_mkdirp_error ext (jp_runtimeDir ext) = Some e →
  let after := writeConnectionFile ext portFinderOptions w in
  uncaught after.2 = uncaught w ++ [e] ∧
  after.1 = (writeConnectionFile (directory_created ext) portFinderOptions w).1.
Proof.
  intros Hports Hmkdirp. cbv zeta.
  split; [|apply writeConnectionFile_outcome_ignores_mkdirp].
  run_write. rewrite Hports. simpl. rewrite Hmkdirp. simpl.
  destruct (fs_coerces_data ext); simpl; [|done].
  destruct (fs_writeFile_error ext _); done.
Qed.

End ConnectionFileErrors.

(** C3, on an example: the runtime directory cannot be created
    ([EACCES]) and the write then fails ([ENOENT]).  The call rejects
    with the error of the write; the error of the directory creation is
    raised outside the promise, as an uncaught exception. *)
Lemma mkdirp_error_escapes_example :
  (writeConnectionFile no_runtime_dir None empty_world).1 =
    Rejected (SystemError "ENOENT") ∧
  uncaught (writeConnectionFile no_runtime_dir None empty_world).2 =
    [SystemError "EACCES"].
Proof.
  destruct (mkdirp_error_escapes_the_promise no_runtime_dir None empty_world
              [9000; 9001; 9002; 9003; 9004] (SystemError "EACCES")
              eq_refl eq_refl) as [Huncaught Houtcome].
  split; [reflexivity | exact Huncaught].
Defined.

(** The launch of the IPython kernel on the [healthy] machine: the call
    resolves with the descriptor and the path of the file, and the file
    holds the coerced object. *)
Lemma writeConnectionFile_example :
  (writeConnectionFile healthy None empty_world).1 =
    Resolved (example_config,
              "/run/user/1000/jupyter/kernel-7a9d4c55-file.json") ∧
  files (writeConnectionFile healthy None empty_world).2
    !! "/run/user/1000/jupyter/kernel-7a9d4c55-file.json"
    = Some "[object Object]".
Proof. split; reflexivity. Qed.

(** No deserializer recovers the descriptor from the connection file: two
    launches with different session keys leave files with the same text. *)
Lemma connection_file_forgets_descriptor (parse : string → option ConnectionInfo) :
  ¬ (∀ ext portFinderOptions w config connectionFile w',
       writeConnectionFile ext portFinderOptions w
         = (Resolved (config, connectionFile), w') →
       files w' !! connectionFile ≫= parse = Some config).
Proof.
  intros Hparse.
  pose proof (Hparse healthy None empty_world _ _ _ eq_refl) as H1.
  pose proof (Hparse healthy None (with_uuid_calls S empty_world) _ _ _ eq_refl)
    as H2.
  vm_compute in H1, H2. congruence.
Qed.

Section Launch.

Context (ext : Collaborators).

Lemma alter_last {A} (f : A → A) (l : list A) (x : A) :
  alter f (length l) (l ++ [x]) = l ++ [f x].
Proof. induction l as [|y l IH]; simpl; [done|]. f_equal. exact IH. Qed.

(** One run of [launchSpecFromConnectionInfo] on a kernel spec: the
    child is spawned and its listeners registered, then the channels are
    opened; only the last step can fail. *)
Lemma launchSpecFromConnectionInfo_run ks cfg cf so w :
  launchSpecFromConnectionInfo ext (Some ks) cfg cf so w =
  (match enchannel_createMainChannel ext cfg with
   | inl e => Rejected e
   | inr c =>
       Resolved {| channels := c; config := cfg; connectionFile := cf;
                   kernelSpec := ks; spawn := length (children w) |}
   end,
   {| files := files w; journal := journal w; uuid_calls := uuid_calls w;
      console := console w; uncaught := uncaught w;
      requests := (requests w ++ [Spawn (length (children w))])
                    ++ [OpenChannels cfg];
      children := children w ++ [child_record ext ks cf so] |}).
Proof.
  unfold launchSpecFromConnectionInfo, child_record, cleanup_listeners,
    execa, on, createMainChannel.
  run.
  destruct (enchannel_createMainChannel ext cfg);
    destruct (strict_neq_false _);
    unfold with_requests, with_children; simpl;
    rewrite ?alter_last; simpl; rewrite ?alter_last; done.
Qed.

Lemma spawned_child_record ks cfg cf so w :
  spawned_child ext ks cfg cf so w = Some (child_record ext ks cf so).
Proof.
  unfold spawned_child. rewrite launchSpecFromConnectionInfo_run. simpl.
  rewrite lookup_app_r by lia. by rewrite Nat.sub_diag.
Qed.

End Launch.

Section LaunchProperties.

Context (ext : Collaborators).

Lemma command_line_argv (l : list string) :
  from_option (fun f => [f]) [] (l !! 0%nat) ++ drop 1 l = l.
Proof. by destruct l. Qed.

(** C4: the command line the child is spawned with has as many tokens as
    the spec's argv, and its token at each position is the connection
    file path where the spec has the placeholder and the spec's own
    token everywhere else. *)
Theorem argv_expansion ks cfg cf so w :
  ∃ child,
    spawned_child ext ks cfg cf so w = Some child ∧
    length (command_line child) = length (argv ks) ∧
    ∀ (i : nat) (token : string),
      argv ks !! i = Some token →
      command_line child !! i =
        Some (if decide (token = "{connection_file}") then cf else token).
Proof.
  exists (child_record ext ks cf so). split; [apply spawned_child_record|].
  unfold command_line, child_record. simpl. rewrite command_line_argv.
  unfold expand_argv. split; [apply length_fmap|].
  intros i token Hi. rewrite list_lookup_fmap, Hi. simpl. f_equal.
  destruct (String.eqb_spec token "{connection_file}"); by case_decide.
Qed.

Lemma fullSpawnOptions_unfold ks so :
  fullSpawnOptions ext ks so =
  let env := match env ks with
             | Some e => e ∪ process_env ext
             | None => process_env ext
             end in
  match so with
  | Some o => o ∪ ({[ "env" := VEnv env ]} ∪ defaultSpawnOptions)
  | None => {[ "env" := VEnv env ]} ∪ defaultSpawnOptions
  end.
Proof.
  unfold fullSpawnOptions, Object_assign. simpl.
  rewrite !(right_id_L ∅ (∪)).
  by destruct (env ks), so.
Qed.

(** C2 as the code has it: the [env] option of the spawned child is the
    caller's [env] entry, taken as it is, when the spawn options carry
    one; otherwise it is the ambient environment overlaid by the spec's
    env, the spec winning on a key both set and every key of either
    layer being present. *)
Theorem spawn_env_layers ks cfg cf so w :
  ∃ child,
    spawned_child ext ks cfg cf so w = Some child ∧
    (∀ v, so ≫= (.!! "env") = Some v → options child !! "env" = Some v) ∧
    (so ≫= (.!! "env") = None →
     ∃ merged : Env,
       options child !! "env" = Some (VEnv merged) ∧
       ∀ k, merged !! k =
            match env ks ≫= (.!! k) with
            | Some v => Some v
            | None => process_env ext !! k
            end).
Proof.
  exists (child_record ext ks cf so). split; [apply spawned_child_record|].
  unfold child_record. simpl. rewrite fullSpawnOptions_unfold. cbv zeta.
  split.
  - intros v Hv. destruct so as [o|]; [|done]. simpl in Hv.
    by apply lookup_union_Some_l.
  - intros Hnone.
    exists (match env ks with
            | Some e => e ∪ process_env ext
            | None => process_env ext
            end).
    split.
    + destruct so as [o|]; simpl in Hnone.
      * rewrite lookup_union_r by done.
        apply lookup_union_Some_l, lookup_singleton_eq.
      * apply lookup_union_Some_l, lookup_singleton_eq.
    + intros k. destruct (env ks) as [e|]; simpl; [|done].
      rewrite lookup_union. by destruct (e !! k), (process_env ext !! k).
Qed.

Lemma writeConnectionFile_children portFinderOptions w :
  children (writeConnectionFile ext portFinderOptions w).2 = children w.
Proof.
  run_write.
  destruct (portfinder_getPorts ext _ _ _) as [e|ports]; simpl; [done|].
  destruct (fs_mkdirp_error ext _) as [e|]; simpl;
    (destruct (fs_coerces_data ext); simpl; [|done]);
    destruct (fs_writeFile_error ext _) as [e'|]; done.
Qed.

Lemma writeConnectionFile_requests portFinderOptions w :
  requests (writeConnectionFile ext portFinderOptions w).2 =
  requests w ++ [GetPorts 5 (or_number (portFinderOptions ≫= port) 9000)
                   (or_string (portFinderOptions ≫= host) "127.0.0.1")].
Proof.
  run_write.
  destruct (portfinder_getPorts ext _ _ _) as [e|ports]; simpl; [done|].
  destruct (fs_mkdirp_error ext _) as [e|]; simpl;
    (destruct (fs_coerces_data ext); simpl; [|done]);
    destruct (fs_writeFile_error ext _) as [e'|]; done.
Qed.

Lemma emit_without_listeners pid c event w :
  children w !! pid = Some c → listeners c = [] →
  emit ext pid event w = (Resolved tt, w).
Proof. intros Hc Hl. unfold emit. by rewrite Hc, Hl. Qed.

Lemma emit_all_without_listeners pid c events w :
  children w !! pid = Some c → listeners c = [] →
  emit_all ext pid events w = (Resolved tt, w).
Proof.
  intros Hc Hl. induction events as [|ev events IH]; simpl; [done|].
  unfold bind. by rewrite (emit_without_listeners pid c ev w Hc Hl).
Qed.

Lemma cleanup_flag ks so :
  fullSpawnOptions ext ks so !! "cleanupConnectionFile" =
  match so ≫= (.!! "cleanupConnectionFile") with
  | Some v => Some v
  | None => Some (VBool true)
  end.
Proof.
  rewrite fullSpawnOptions_unfold. cbv zeta.
  destruct so as [o|]; simpl.
  - rewrite lookup_union.
    destruct (o !! "cleanupConnectionFile") as [v|] eqn:Ho; simpl.
    + by destruct (( _ ∪ defaultSpawnOptions) !! "cleanupConnectionFile").
    + rewrite (left_id_L None _).
      rewrite lookup_union_r by (by apply lookup_singleton_ne).
      reflexivity.
  - rewrite lookup_union_r by (by apply lookup_singleton_ne). reflexivity.
Qed.

(** C9: when [launchSpec] returns a launched kernel, the child it spawned
    is in the table of children.  With [cleanupConnectionFile: false] in
    the spawn options the child has no listener, and whatever events it
    emits afterwards the files stay as they are, the connection file
    among them.  With the option absent or [true] the child has the
    [exit] and the [error] listener, both cleaning up the connection
    file. *)
Theorem cleanup_option_decides_observers ks so w lk w' :
  launchSpec ext (Some ks) so w = (Resolved lk, w') →
  ∃ child,
    children w' !! spawn lk = Some child ∧
    (so ≫= (.!! "cleanupConnectionFile") = Some (VBool false) →
     listeners child = [] ∧
     is_Some (files w' !! connectionFile lk) ∧
     ∀ events, files (emit_all ext (spawn lk) events w').2 = files w') ∧
    (so ≫= (.!! "cleanupConnectionFile") = None ∨
     so ≫= (.!! "cleanupConnectionFile") = Some (VBool true) →
     listeners child =
       [("exit", CleanupListener (connectionFile lk));
        ("error", CleanupListener (connectionFile lk))]).
Proof.
  unfold launchSpec, bind. intros Hrun.
  pose proof (writeConnectionFile_text ext None w) as Htext.
  pose proof (writeConnectionFile_children None w) as Hchildren.
  destruct (writeConnectionFile ext None w) as [[[cfg cf]|e] w1];
    [|discriminate].
  rewrite launchSpecFromConnectionInfo_run in Hrun. simpl in *.
  destruct (enchannel_createMainChannel ext cfg) as [e|c]; [discriminate|].
  injection Hrun as <- <-. simpl.
  exists (child_record ext ks cf so).
  assert (Hchild : (children w1 ++ [child_record ext ks cf so])
                     !! length (children w1)
                   = Some (child_record ext ks cf so)).
  { rewrite lookup_app_r by lia. by rewrite Nat.sub_diag. }
  split; [exact Hchild|].
  assert (Hl : listeners (child_record ext ks cf so) =
               if strict_neq_false
                    (match so ≫= (.!! "cleanupConnectionFile") with
                     | Some v => Some v
                     | None => Some (VBool true)
                     end)
               then [("exit", CleanupListener cf);
                     ("error", CleanupListener cf)]
               else []).
  { unfold child_record, cleanup_listeners. simpl. by rewrite cleanup_flag. }
  split.
  - intros Hfalse. rewrite Hfalse in Hl. simpl in Hl. split; [exact Hl|].
    split; [by rewrite Htext|].
    intros events.
    erewrite (emit_all_without_listeners _ (child_record ext ks cf so));
      [done | exact Hchild | exact Hl].
  - intros [Hnone|Htrue]; [rewrite Hnone in Hl | rewrite Htrue in Hl];
      exact Hl.
Qed.

Lemma port_probes_app rs rs' :
  port_probes (rs ++ rs') = port_probes rs ++ port_probes rs'.
Proof. apply omap_app. Qed.

Lemma launchSpec_probes ks so w :
  port_probes (requests (launchSpec ext ks so w).2) =
  port_probes (requests w) ++ [(5%nat, 9000, "127.0.0.1")].
Proof.
  unfold launchSpec, bind.
  pose proof (writeConnectionFile_requests None w) as Hreq.
  destruct (writeConnectionFile ext None w) as [[[cfg cf]|e] w1];
    simpl in *.
  - destruct ks as [ks|].
    + rewrite launchSpecFromConnectionInfo_run. simpl.
      rewrite Hreq, !port_probes_app. simpl. by rewrite !app_nil_r.
    + simpl. by rewrite Hreq, port_probes_app.
  - by rewrite Hreq, port_probes_app.
Qed.

Lemma launch_with_probes name so specs w :
  let probes := port_probes (requests (launch_with ext name so specs w).2) in
  probes = port_probes (requests w) ++ [(5%nat, 9000, "127.0.0.1")] ∨
  probes = port_probes (requests w).
Proof.
  cbv zeta. unfold launch_with.
  destruct (get_property specs name); [left|left|right];
    try apply launchSpec_probes; done.
Qed.

(** C10: whatever kernel spec and spawn options [launchSpec] is given, it
    probes for ports exactly once, asking for 5 ports from base port 9000
    on host 127.0.0.1; [launch], whatever name, spawn options and specs it
    is given, makes that same probe or (when the name is not found or the
    discovery fails) none. *)
Theorem launch_probes_default_ports :
  (∀ ks so w,
     port_probes (requests (launchSpec ext ks so w).2) =
     port_probes (requests w) ++ [(5%nat, 9000, "127.0.0.1")]) ∧
  (∀ name so specs w,
     let probes := port_probes (requests (launch ext name so specs w).2) in
     probes = port_probes (requests w) ++ [(5%nat, 9000, "127.0.0.1")] ∨
     probes = port_probes (requests w)).
Proof.
  split; [apply launchSpec_probes|].
  intros name so [specs|] w; cbv zeta; simpl; [apply launch_with_probes|].
  unfold bind, findAll.
  destruct (kernelspecs_findAll ext) as [e|sp]; simpl; [by right|].
  apply launch_with_probes.
Qed.

(** A name that is neither a key of the mapping nor a member of
    [Object.prototype] is rejected with an error naming it, before
    anything else is done. *)
Lemma launch_unknown_name name so (specs : KernelResourceByName) w :
  specs !! name = None → name ∉ Object_prototype_keys →
  launch ext name so (Some specs) w =
  (Rejected (Error ("No spec available for " +:+ name)), w).
Proof.
  intros Hnone Hproto. simpl. unfold launch_with, get_property.
  rewrite Hnone. by rewrite bool_decide_eq_false_2.
Qed.

(** A name that is not a key of the mapping but is a member of
    [Object.prototype] passes the guard, and the launch goes on with an
    undefined kernel spec. *)
Lemma launch_inherited_name name so (specs : KernelResourceByName) w :
  specs !! name = None → name ∈ Object_prototype_keys →
  launch ext name so (Some specs) w = launchSpec ext None so w.
Proof.
  intros Hnone Hproto. simpl. unfold launch_with, get_property.
  rewrite Hnone. by rewrite bool_decide_eq_true_2.
Qed.

End LaunchProperties.

Lemma run_callback_cleanup ext connectionFile w :
  run_callback (cleanup ext connectionFile) w = cleanup ext connectionFile w.
Proof. unfold run_callback. by rewrite cleanup_run. Qed.

Lemma cleanup_children ext connectionFile w :
  children (cleanup ext connectionFile w).2 = children w.
Proof.
  rewrite cleanup_run. simpl.
  by destruct (files w !! connectionFile), (fs_unlink_error ext connectionFile).
Qed.

(** A child with the two cleanup listeners runs [cleanup] once on [exit]
    and once on [error]. *)
Lemma emit_with_cleanup_listeners ext pid c connectionFile event w :
  children w !! pid = Some c →
  listeners c = [("exit", CleanupListener connectionFile);
                 ("error", CleanupListener connectionFile)] →
  event = "exit" ∨ event = "error" →
  emit ext pid event w = cleanup ext connectionFile w.
Proof.
  intros Hc Hl Hev. unfold emit. rewrite Hc, Hl.
  destruct Hev as [-> | ->]; simpl; unfold bind, ret;
    rewrite run_callback_cleanup, cleanup_run; done.
Qed.

(** C6, through the events: a child with the two cleanup listeners that
    emits [error] and then [exit] runs [cleanup] twice, and nothing
    else. *)
Lemma error_then_exit_is_cleanup_twice ext pid c connectionFile w :
  children w !! pid = Some c →
  listeners c = [("exit", CleanupListener connectionFile);
                 ("error", CleanupListener connectionFile)] →
  emit_all ext pid ["error"; "exit"] w =
  cleanup ext connectionFile (cleanup ext connectionFile w).2.
Proof.
  intros Hc Hl. unfold emit_all, bind.
  rewrite (emit_with_cleanup_listeners ext pid c connectionFile "error" w)
    by auto.
  pose proof (cleanup_children ext connectionFile w) as Hsame.
  pose proof (cleanup_run ext connectionFile w) as Hrun.
  destruct (cleanup ext connectionFile w) as [o w1]. simpl in *.
  injection Hrun as -> _.
  rewrite (emit_with_cleanup_listeners ext pid c connectionFile "exit" w1)
    by (rewrite ?Hsame; auto).
  rewrite cleanup_run. done.
Qed.

(** C2 as the spec states it fails: the caller supplies an [env] of its
    own; the child's [env] option is that map alone, and the key set only
    in the spec's env and the key set only in the ambient environment are
    both missing from it. *)
Lemma caller_env_replaces_the_merged_env :
  let caller : Env := {[ "LANG" := "C" ]} in
  let so : option Obj := Some {[ "env" := VEnv caller ]} in
  spawned_child healthy python3 example_config example_path so empty_world
    = Some (child_record healthy python3 example_path so) ∧
  options (child_record healthy python3 example_path so) !! "env"
    = Some (VEnv caller) ∧
  env python3 ≫= (.!! "PYTHONUNBUFFERED") = Some "1" ∧
  caller !! "PYTHONUNBUFFERED" = None ∧
  process_env healthy !! "PATH" = Some "/usr/bin" ∧
  caller !! "PATH" = None.
Proof. cbv zeta. repeat split; reflexivity. Qed.

(** C2, on an example: without an [env] of the caller the child gets the
    ambient environment overlaid by the spec's env. *)
Lemma spawn_env_layers_example :
  ∃ child merged,
    spawned_child healthy python3 example_config example_path None empty_world
      = Some child ∧
    options child !! "env" = Some (VEnv merged) ∧
    merged !! "PYTHONUNBUFFERED" = Some "1" ∧
    merged !! "PATH" = Some "/usr/bin".
Proof.
  destruct (spawn_env_layers healthy python3 example_config example_path None
              empty_world) as (child & Hchild & _ & Hmerged).
  destruct (Hmerged eq_refl) as (merged & Henv & Hk).
  exists child, merged.
  split; [exact Hchild|]. split; [exact Henv|].
  split; rewrite Hk; reflexivity.
Defined.

(** C4, on an example: the placeholder of the IPython kernel spec is the
    last of five tokens; it is replaced, the other four are kept. *)
Lemma argv_expansion_example :
  ∃ child,
    spawned_child healthy python3 example_config example_path None empty_world
      = Some child ∧
    length (command_line child) = 5%nat ∧
    command_line child !! 0%nat = Some "python" ∧
    command_line child !! 3%nat = Some "-f" ∧
    command_line child !! 4%nat = Some example_path.
Proof.
  destruct (argv_expansion healthy python3 example_config example_path None
              empty_world) as (child & Hchild & Hlen & Htok).
  exists child. split; [exact Hchild|]. split; [exact Hlen|].
  split; [exact (Htok 0%nat "python" eq_refl)|].
  split; [exact (Htok 3%nat "-f" eq_refl)|].
  exact (Htok 4%nat "{connection_file}" eq_refl).
Defined.

(** C9, on an example: a launch with [cleanupConnectionFile: false]
    leaves a child without listeners, and the connection file is still
    there after the child has exited. *)
Lemma cleanup_disabled_example :
  let so : option Obj := Some {[ "cleanupConnectionFile" := VBool false ]} in
  let after := launchSpec healthy (Some python3) so empty_world in
  ∃ child,
    children after.2 !! 0%nat = Some child ∧
    listeners child = [] ∧
    files (emit_all healthy 0 ["exit"] after.2).2
      !! "/run/user/1000/jupyter/kernel-7a9d4c55-file.json"
      = Some "[object Object]".
Proof.
  cbv zeta.
  assert (Hrun :
    launchSpec healthy (Some python3)
      (Some {[ "cleanupConnectionFile" := VBool false ]}) empty_world =
    (Resolved example_launch,
     (launchSpec healthy (Some python3)
        (Some {[ "cleanupConnectionFile" := VBool false ]}) empty_world).2))
    by (vm_compute; reflexivity).
  destruct (cleanup_option_decides_observers healthy python3
              (Some {[ "cleanupConnectionFile" := VBool false ]})
              empty_world _ _ Hrun)
    as (child & Hchild & Hoff & _).
  destruct (Hoff eq_refl) as (Hnone & _ & Hfiles).
  exists child. split; [exact Hchild|]. split; [exact Hnone|].
  change 0%nat with (spawn example_launch) at 1.
  rewrite (Hfiles ["exit"]). reflexivity.
Defined.

(** C8, what the code does for a missing kernel called [constructor]:
    the mapping is empty, yet [specs["constructor"]] finds the member
    inherited from [Object.prototype], the guard lets it through, a
    connection file is written, and the launch rejects with a
    [TypeError] on reading [argv] of an undefined kernel spec, not with
    the error naming the missing kernel. *)
Theorem launch_constructor_is_not_rejected_by_name :
  let specs : KernelResourceByName := ∅ in
  let after := launch healthy "constructor" None (Some specs) empty_world in
  specs !! "constructor" = None ∧
  after.1 = Rejected (TypeError "Cannot read property 'argv' of undefined") ∧
  after.1 ≠ Rejected (Error "No spec available for constructor") ∧
  journal after.2 =
    [MadeDir "/run/user/1000/jupyter";
     Wrote "/run/user/1000/jupyter/kernel-7a9d4c55-file.json"].
Proof.
  cbv zeta. split; [reflexivity|]. split; [reflexivity|].
  split; [|reflexivity].
  intros H. vm_compute in H. discriminate H.
Qed.

(** C8, the names for which the claim holds: a kernel name outside the
    mapping, here [python2], is rejected with the error naming it. *)
Lemma launch_python2_example :
  launch healthy "python2" None (Some ∅) empty_world =
  (Rejected (Error "No spec available for python2"), empty_world).
Proof.
  apply launch_unknown_name; [reflexivity|].
  unfold Object_prototype_keys. rewrite !not_elem_of_cons.
  repeat split; try discriminate. apply not_elem_of_nil.
Qed.

(** ** Further properties of the launcher *)

Section WriteConnectionFileRuns.

Context (ext : Collaborators).

(** One run of [writeConnectionFile], step by step: the probe, the
    directory, the descriptor and the file name, the write. *)
Lemma writeConnectionFile_run portFinderOptions w :
  writeConnectionFile ext portFinderOptions w =
  let p := or_number (portFinderOptions ≫= port) 9000 in
  let h := or_string (portFinderOptions ≫= host) "127.0.0.1" in
  let w1 := with_requests (fun l => l ++ [GetPorts 5 p h]) w in
  match portfinder_getPorts ext 5 p h with
  | inl e => (Rejected e, with_console (fun l => l ++ [e]) w1)
  | inr ports =>
      let w2 :=
        match fs_mkdirp_error ext (jp_runtimeDir ext) with
        | Some e => with_uncaught (fun l => l ++ [e]) w1
        | None => with_journal (fun l => l ++ [MadeDir (jp_runtimeDir ext)]) w1
        end in
      let w3 := with_uuid_calls S (with_uuid_calls S w2) in
      let cf := path_join (jp_runtimeDir ext)
                  ("kernel-" +:+ uuid_v4 ext (S (uuid_calls w)) +:+ ".json") in
      if fs_coerces_data ext then
        match fs_writeFile_error ext cf with
        | Some e => (Rejected e, with_console (fun l => l ++ [e]) w3)
        | None =>
            (Resolved (descriptor (uuid_v4 ext (uuid_calls w)) ports, cf),
             with_journal (fun l => l ++ [Wrote cf])
               (with_files (insert cf "[object Object]") w3))
        end
      else
        (Rejected (TypeError "ERR_INVALID_ARG_TYPE"),
         with_console (fun l => l ++ [TypeError "ERR_INVALID_ARG_TYPE"]) w3)
  end.
Proof.
  run_write.
  destruct (portfinder_getPorts ext _ _ _) as [e|ports]; simpl; [done|].
  destruct (fs_mkdirp_error ext _) as [e|]; simpl;
    (destruct (fs_coerces_data ext); simpl; [|done]);
    destruct (fs_writeFile_error ext _) as [e'|]; done.
Qed.

(** X1: when no ports are found, [writeConnectionFile] rejects with the
    error of the probe and logs it once; no directory has been made, no
    file written, no identifier drawn, and nothing is raised outside the
    call. *)
Theorem probe_failure_stops_the_write portFinderOptions w e :
  portfinder_getPorts ext 5 (or_number (portFinderOptions ≫= port) 9000)
    (or_string (portFinderOptions ≫= host) "127.0.0.1") = inl e →
  let after := writeConnectionFile ext portFinderOptions w in
  after.1 = Rejected e ∧
  console after.2 = console w ++ [e] ∧
  files after.2 = files w ∧
  journal after.2 = journal w ∧
  uuid_calls after.2 = uuid_calls w ∧
  uncaught after.2 = uncaught w.
Proof.
  intros Hprobe. cbv zeta. rewrite writeConnectionFile_run. cbv zeta.
  rewrite Hprobe. done.
Qed.


(** X3: when ports are found but the file cannot be written,
    [writeConnectionFile] rejects with the error of the write and logs
    it; the files are as before, although two identifiers have been
    drawn. *)
Theorem write_failure portFinderOptions w ports e :
  portfinder_getPorts ext 5 (or_number (portFinderOptions ≫= port) 9000)
    (or_string (portFinderOptions ≫= host) "127.0.0.1") = inr ports →
  fs_coerces_data ext = true →
  fs_writeFile_error ext
    (path_join (jp_runtimeDir ext)
       ("kernel-" +:+ uuid_v4 ext (S (uuid_calls w)) +:+ ".json")) = Some e →
  let after := writeConnectionFile ext portFinderOptions w in
  after.1 = Rejected e ∧
  console after.2 = console w ++ [e] ∧
  files after.2 = files w ∧
  uuid_calls after.2 = S (S (uuid_calls w)).
Proof.
  intros Hprobe Hcoerce Hwrite. cbv zeta. rewrite writeConnectionFile_run.
  cbv zeta. rewrite Hprobe, Hcoerce, Hwrite. simpl.
  by destruct (fs_mkdirp_error ext (jp_runtimeDir ext)).
Qed.


End WriteConnectionFileRuns.

Section LaunchRuns.

Context (ext : Collaborators).

(** What a resolved [launchSpec] went through. *)
Lemma launchSpec_resolved ks so w lk w' :
  launchSpec ext (Some ks) so w = (Resolved lk, w') →
  ∃ cfg cf w1 c,
    writeConnectionFile ext None w = (Resolved (cfg, cf), w1) ∧
    enchannel_createMainChannel ext cfg = inr c ∧
    lk = {| channels := c; config := cfg; connectionFile := cf;
            kernelSpec := ks; spawn := length (children w1) |} ∧
    w' = {| files := files w1; journal := journal w1;
            uuid_calls := uuid_calls w1; console := console w1;
            uncaught := uncaught w1;
            requests := (requests w1 ++ [Spawn (length (children w1))])
                          ++ [OpenChannels cfg];
            children := children w1 ++ [child_record ext ks cf so] |}.
Proof.
  unfold launchSpec, bind. intros Hrun.
  destruct (writeConnectionFile ext None w) as [[[cfg cf]|e] w1];
    [|discriminate].
  rewrite launchSpecFromConnectionInfo_run in Hrun. simpl in Hrun.
  destruct (enchannel_createMainChannel ext cfg) as [e|c] eqn:Hopen;
    [discriminate|].
  injection Hrun as <- <-. by exists cfg, cf, w1, c.
Qed.

Lemma listeners_of_child_record ks cf so :
  listeners (child_record ext ks cf so) =
  if strict_neq_false (so ≫= (.!! "cleanupConnectionFile"))
  then [("exit", CleanupListener cf); ("error", CleanupListener cf)]
  else [].
Proof.
  unfold child_record, cleanup_listeners. simpl. rewrite cleanup_flag.
  by destruct (so ≫= (.!! "cleanupConnectionFile")).
Qed.

Lemma last_child {A} (l : list A) (x : A) : (l ++ [x]) !! length l = Some x.
Proof. rewrite lookup_app_r by lia. by rewrite Nat.sub_diag. Qed.




(** X8: every entry of the caller's spawn options reaches the child
    unchanged, whatever its key; [stdio] is [ignore] unless the caller
    sets it; and nothing else is added: a key the caller does not set,
    other than [env], [stdio] and [cleanupConnectionFile], is absent. *)
Theorem caller_options_pass_through ks cfg cf so w :
  ∃ child,
    spawned_child ext ks cfg cf so w = Some child ∧
    (∀ k v, so ≫= (.!! k) = Some v → options child !! k = Some v) ∧
    (so ≫= (.!! "stdio") = None →
     options child !! "stdio" = Some (VStr "ignore")) ∧
    (∀ k, so ≫= (.!! k) = None →
          k ≠ "env" → k ≠ "stdio" → k ≠ "cleanupConnectionFile" →
          options child !! k = None).
Proof.
  exists (child_record ext ks cf so). split; [apply spawned_child_record|].
  unfold child_record. simpl. rewrite fullSpawnOptions_unfold. cbv zeta.
  unfold defaultSpawnOptions.
  split; [|split].
  - intros k v Hk. destruct so as [o|]; [|done]. simpl in Hk.
    by apply lookup_union_Some_l.
  - intros Hnone. destruct so as [o|]; simpl in Hnone;
      rewrite ?(lookup_union_r o) by done;
      rewrite lookup_union_r by done; reflexivity.
  - intros k Hnone Henv Hstdio Hflag.
    destruct so as [o|]; simpl in Hnone;
      rewrite ?(lookup_union_r o) by done;
      rewrite lookup_union_r by (by rewrite lookup_singleton_ne);
      rewrite lookup_insert_ne by done; by rewrite lookup_singleton_ne.
Qed.


(** X10: [launch] rejects without having done anything, the world being
    as before, when the scan for kernel specs fails (with the error of
    the scan) and when the name is neither a key of the mapping, given or
    found by the scan, nor a member of [Object.prototype] (with an error
    whose message ends with the name). *)
Theorem launch_rejections_leave_the_world name so w :
  (∀ e, kernelspecs_findAll ext = inl e →
        launch ext name so None w = (Rejected e, w)) ∧
  (∀ specs (sp : KernelResourceByName),
     specs = Some sp ∨ (specs = None ∧ kernelspecs_findAll ext = inr sp) →
     sp !! name = None → name ∉ Object_prototype_keys →
     launch ext name so specs w =
     (Rejected (Error ("No spec available for " +:+ name)), w)).
Proof.
  split.
  - intros e He. simpl. unfold bind, findAll. by rewrite He.
  - intros specs sp [-> | [-> Hfound]] Hnone Hproto; simpl.
    + unfold launch_with, get_property. rewrite Hnone.
      by rewrite bool_decide_eq_false_2.
    + unfold bind, findAll. rewrite Hfound. simpl.
      unfold launch_with, get_property. rewrite Hnone.
      by rewrite bool_decide_eq_false_2.
Qed.

(** X11: [cleanup] removes the file it is given whenever the operating
    system permits, and never anything else: every other file, the
    children and the requests are as before. *)
Theorem cleanup_removes_only_its_file cf w :
  let after := (cleanup ext cf w).2 in
  (fs_unlink_error ext cf = None → files after !! cf = None) ∧
  (∀ path, path ≠ cf → files after !! path = files w !! path) ∧
  children after = children w ∧
  requests after = requests w.
Proof.
  cbv zeta. rewrite cleanup_run. simpl.
  destruct (files w !! cf) as [text|] eqn:Hf;
    [destruct (fs_unlink_error ext cf) as [e|] eqn:He|]; simpl.
  - split; [done|]. done.
  - split; [intros _; apply lookup_delete_eq|].
    split; [|done]. intros path Hpath. by rewrite lookup_delete_ne.
  - split; [done|]. done.
Qed.

(** X12: after a launch that did not disable the cleanup, the [exit]
    event of the child, and likewise its [error] event, deletes the
    connection file when the operating system permits; no other file
    changes and nothing is raised. *)
Theorem exit_deletes_the_connection_file ks so w lk w' event :
  launchSpec ext (Some ks) so w = (Resolved lk, w') →
  strict_neq_false (so ≫= (.!! "cleanupConnectionFile")) = true →
  fs_unlink_error ext (connectionFile lk) = None →
  event = "exit" ∨ event = "error" →
  let after := emit ext (spawn lk) event w' in
  after.1 = Resolved tt ∧
  files after.2 !! connectionFile lk = None ∧
  (∀ path, path ≠ connectionFile lk →
           files after.2 !! path = files w' !! path) ∧
  uncaught after.2 = uncaught w'.
Proof.
  intros Hrun Hflag Hunlink Hevent.
  destruct (launchSpec_resolved _ _ _ _ _ Hrun)
    as (cfg & cf & w1 & c & Hwrite & Hopen & -> & ->).
  simpl in Hunlink. cbv zeta. simpl.
  erewrite (emit_with_cleanup_listeners ext _ (child_record ext ks cf so) cf);
    [|apply last_child
     |by rewrite listeners_of_child_record, Hflag
     |exact Hevent].
  rewrite cleanup_run. simpl. rewrite Hunlink.
  destruct (files w1 !! cf) as [text|] eqn:Hf; simpl.
  - split; [done|]. split; [apply lookup_delete_eq|].
    split; [|done]. intros path Hpath. by rewrite lookup_delete_ne.
  - by rewrite Hf.
Qed.

(** X13: the child of a launch reacts to no event but [exit] and
    [error]: any other event leaves the world as it is. *)
Theorem other_events_do_nothing ks so w lk w' event :
  launchSpec ext (Some ks) so w = (Resolved lk, w') →
  event ≠ "exit" → event ≠ "error" →
  emit ext (spawn lk) event w' = (Resolved tt, w').
Proof.
  intros Hrun Hexit Herror.
  destruct (launchSpec_resolved _ _ _ _ _ Hrun)
    as (cfg & cf & w1 & c & Hwrite & Hopen & -> & ->).
  unfold emit. simpl. rewrite last_child, listeners_of_child_record.
  destruct (strict_neq_false _); simpl; [|done].
  assert (Hne1 : String.eqb "exit" event = false)
    by (apply String.eqb_neq; congruence).
  assert (Hne2 : String.eqb "error" event = false)
    by (apply String.eqb_neq; congruence).
  simpl in Hne1, Hne2. by rewrite Hne1, Hne2.
Qed.

(** X14: an argv without the placeholder token is passed on as it is,
    also when some token merely contains the placeholder: the kernel is
    then started without the path of its connection file. *)
Theorem argv_without_placeholder ks cfg cf so w :
  "{connection_file}" ∉ argv ks →
  ∃ child,
    spawned_child ext ks cfg cf so w = Some child ∧
    command_line child = argv ks.
Proof.
  intros Habsent. exists (child_record ext ks cf so).
  split; [apply spawned_child_record|].
  unfold command_line, child_record. simpl. rewrite command_line_argv.
  unfold expand_argv. induction (argv ks) as [|token rest IH]; [done|].
  apply not_elem_of_cons in Habsent as [Hne Hrest].
  rewrite fmap_cons, IH by done. f_equal.
  destruct (String.eqb_spec token "{connection_file}"); congruence.
Qed.


End LaunchRuns.

(** ** Line endings *)

Lemma normalizeLineEndings_replace str :
  normalizeLineEndings str = replace_line_endings str.
Proof. by destruct str. Qed.

Lemma replace_line_endings_cons c rest :
  replace_line_endings (String c rest) =
  if Ascii.eqb c CR then
    match rest with
    | String c' rest' =>
        if Ascii.eqb c' LF
        then String LF (replace_line_endings rest')
        else String LF (replace_line_endings rest)
    | EmptyString => String LF EmptyString
    end
  else String c (replace_line_endings rest).
Proof. reflexivity. Qed.

Lemma occurs_cons c c' rest :
  occurs c (String c' rest) = Ascii.eqb c' c || occurs c rest.
Proof. reflexivity. Qed.

Lemma LF_is_not_CR : Ascii.eqb LF CR = false.
Proof. reflexivity. Qed.

Lemma replace_line_endings_no_CR_bounded n :
  ∀ str, (String.length str ≤ n)%nat →
         occurs CR (replace_line_endings str) = false.
Proof.
  induction n as [|n IH]; intros [|c rest] Hlen;
    [done | simpl in Hlen; lia | done |].
  rewrite replace_line_endings_cons.
  assert (Hrest : (String.length rest ≤ n)%nat) by (simpl in Hlen; lia).
  destruct (Ascii.eqb c CR) eqn:Hc.
  - destruct rest as [|c' rest'] eqn:Hr; [done|]. rewrite <- Hr in *.
    destruct (Ascii.eqb c' LF); rewrite occurs_cons, LF_is_not_CR;
      apply IH; [|exact Hrest].
    rewrite Hr in Hrest. simpl in Hrest. lia.
  - rewrite occurs_cons, Hc. by apply IH.
Qed.

Lemma replace_line_endings_no_CR str :
  occurs CR (replace_line_endings str) = false.
Proof. by apply (replace_line_endings_no_CR_bounded (String.length str)). Qed.

Lemma replace_line_endings_without_CR str :
  occurs CR str = false → replace_line_endings str = str.
Proof.
  induction str as [|c rest IH]; [done|].
  rewrite occurs_cons, replace_line_endings_cons.
  intros [Hc Hrest]%orb_false_iff. rewrite Hc. by rewrite IH.
Qed.

Lemma replace_line_endings_length_bounded n :
  ∀ str, (String.length str ≤ n)%nat →
         (String.length (replace_line_endings str) ≤ String.length str)%nat.
Proof.
  induction n as [|n IH]; intros [|c rest] Hlen;
    [done | simpl in Hlen; lia | done |].
  rewrite replace_line_endings_cons.
  assert (Hrest : (String.length rest ≤ n)%nat) by (simpl in Hlen; lia).
  pose proof (IH rest Hrest) as IHrest.
  destruct (Ascii.eqb c CR).
  - destruct rest as [|c' rest'] eqn:Hr; [simpl; lia|]. rewrite <- Hr in *.
    destruct (Ascii.eqb c' LF).
    + assert (Hrest' : (String.length rest' ≤ n)%nat)
        by (rewrite Hr in Hrest; simpl in Hrest; lia).
      pose proof (IH rest' Hrest') as IHrest'.
      change (S (String.length (replace_line_endings rest'))
              ≤ S (String.length rest))%nat.
      rewrite Hr. simpl. lia.
    + change (S (String.length (replace_line_endings rest))
              ≤ S (String.length rest))%nat.
      lia.
  - change (S (String.length (replace_line_endings rest))
            ≤ S (String.length rest))%nat.
    lia.
Qed.

Lemma ends_with_CR_cons c c' str :
  ends_with_CR (String c (String c' str)) = ends_with_CR (String c' str).
Proof. reflexivity. Qed.

Lemma append_cons c a b : String c a +:+ b = String c (a +:+ b).
Proof. reflexivity. Qed.

Lemma replace_line_endings_app_bounded n :
  ∀ a b, (String.length a ≤ n)%nat →
         (ends_with_CR a = true → starts_with_LF b = false) →
         replace_line_endings (a +:+ b) =
         replace_line_endings a +:+ replace_line_endings b.
Proof.
  induction n as [|n IH]; intros [|c a1] b Hlen Hsplit;
    [done | simpl in Hlen; lia | done |].
  assert (Ha1 : (String.length a1 ≤ n)%nat) by (simpl in Hlen; lia).
  rewrite append_cons, !replace_line_endings_cons.
  destruct (Ascii.eqb c CR) eqn:Hc.
  - destruct a1 as [|c1 a2].
    + specialize (Hsplit Hc). change (EmptyString +:+ b) with b.
      destruct b as [|c1 b1] eqn:Hb; [done|]. rewrite <- Hb in *.
      rewrite Hb in Hsplit. simpl in Hsplit. by rewrite Hsplit.
    + rewrite append_cons.
      rewrite ends_with_CR_cons in Hsplit.
      destruct (Ascii.eqb c1 LF) eqn:Hc1.
      * rewrite append_cons. f_equal. apply IH; [simpl in Ha1; lia|].
        intros Hend. apply Hsplit.
        destruct a2 as [|c2 a3]; [done|exact Hend].
      * rewrite append_cons. f_equal.
        rewrite <- append_cons. by apply IH.
  - rewrite append_cons. f_equal. apply IH; [exact Ha1|].
    intros Hend. apply Hsplit.
    destruct a1 as [|c1 a2]; [done|exact Hend].
Qed.

(** X16: the result of [normalizeLineEndings] holds no carriage return,
    and normalizing it again changes nothing. *)
Theorem normalizeLineEndings_idempotent str :
  occurs CR (normalizeLineEndings str) = false ∧
  normalizeLineEndings (normalizeLineEndings str) = normalizeLineEndings str.
Proof.
  rewrite !normalizeLineEndings_replace.
  split; [apply replace_line_endings_no_CR|].
  apply replace_line_endings_without_CR, replace_line_endings_no_CR.
Qed.

(** X17: [normalizeLineEndings] never makes a string longer, and hands
    back unchanged a string that holds no carriage return. *)
Theorem normalizeLineEndings_keeps_clean_strings str :
  (String.length (normalizeLineEndings str) ≤ String.length str)%nat ∧
  (occurs CR str = false → normalizeLineEndings str = str).
Proof.
  rewrite normalizeLineEndings_replace. split.
  - by apply (replace_line_endings_length_bounded (String.length str)).
  - apply replace_line_endings_without_CR.
Qed.

(** X18: normalizing a text piece by piece gives the normalized text,
    provided the cut does not fall between a carriage return and the line
    feed that follows it. *)
Theorem normalizeLineEndings_app a b :
  (ends_with_CR a = true → starts_with_LF b = false) →
  normalizeLineEndings (a +:+ b) =
  normalizeLineEndings a +:+ normalizeLineEndings b.
Proof.
  intros Hsplit. rewrite !normalizeLineEndings_replace.
  by apply (replace_line_endings_app_bounded (String.length a)).
Qed.

(** ** Examples of the further properties *)

(** X1, on the machine without free ports. *)
Lemma probe_failure_example :
  (writeConnectionFile no_ports None empty_world).1
    = Rejected (Error "No open ports available") ∧
  console (writeConnectionFile no_ports None empty_world).2
    = [Error "No open ports available"] ∧
  files (writeConnectionFile no_ports None empty_world).2 = ∅.
Proof.
  destruct (probe_failure_stops_the_write no_ports None empty_world
              (Error "No open ports available") eq_refl)
    as (Hout & Hlog & Hfiles & _).
  split; [exact Hout|]. split; [exact Hlog | exact Hfiles].
Defined.


(** X3, on the machine whose disk is full. *)
Lemma write_failure_example :
  (writeConnectionFile disk_full None empty_world).1
    = Rejected (SystemError "ENOSPC") ∧
  console (writeConnectionFile disk_full None empty_world).2
    = [SystemError "ENOSPC"] ∧
  files (writeConnectionFile disk_full None empty_world).2 = ∅.
Proof.
  destruct (write_failure disk_full None empty_world
              [9000; 9001; 9002; 9003; 9004] (SystemError "ENOSPC")
              eq_refl eq_refl eq_refl)
    as (Hout & Hlog & Hfiles & _).
  split; [exact Hout|]. split; [exact Hlog | exact Hfiles].
Defined.





(** X10, on the machine whose scan fails and for a kernel that is not
    installed. *)
Lemma launch_rejections_example :
  launch no_channels "python3" None None empty_world
    = (Rejected (SystemError "EACCES"), empty_world) ∧
  launch healthy "python2" None None empty_world
    = (Rejected (Error "No spec available for python2"), empty_world).
Proof.
  split.
  - exact (proj1 (launch_rejections_leave_the_world no_channels "python3"
                    None empty_world) (SystemError "EACCES") eq_refl).
  - apply (proj2 (launch_rejections_leave_the_world healthy "python2"
                    None empty_world) None ∅).
    + right. split; reflexivity.
    + reflexivity.
    + unfold Object_prototype_keys. rewrite !not_elem_of_cons.
      repeat split; try discriminate. apply not_elem_of_nil.
Defined.

(** X12, on the healthy machine: the child exits and the connection file
    is gone. *)
Lemma exit_deletes_the_connection_file_example :
  files (emit healthy 0 "exit"
           (launchSpec healthy (Some python3) None empty_world).2).2
    !! "/run/user/1000/jupyter/kernel-7a9d4c55-file.json" = None.
Proof.
  assert (Hrun :
    launchSpec healthy (Some python3) None empty_world =
    (Resolved example_launch,
     (launchSpec healthy (Some python3) None empty_world).2))
    by (vm_compute; reflexivity).
  destruct (exit_deletes_the_connection_file healthy python3 None
              empty_world _ _ "exit" Hrun eq_refl eq_refl
              (or_introl eq_refl)) as (_ & Hgone & _).
  exact Hgone.
Defined.

(** X13, on the healthy machine: the child closes its streams. *)
Lemma other_events_example :
  emit healthy 0 "close"
    (launchSpec healthy (Some python3) None empty_world).2
  = (Resolved tt, (launchSpec healthy (Some python3) None empty_world).2).
Proof.
  assert (Hrun :
    launchSpec healthy (Some python3) None empty_world =
    (Resolved example_launch,
     (launchSpec healthy (Some python3) None empty_world).2))
    by (vm_compute; reflexivity).
  assert (Hexit : "close" ≠ "exit") by discriminate.
  assert (Herror : "close" ≠ "error") by discriminate.
  exact (other_events_do_nothing healthy python3 None empty_world _ _
           "close" Hrun Hexit Herror).
Defined.

(** X14, for a kernel spec that embeds the placeholder in a longer
    token. *)
Lemma argv_without_placeholder_example :
  ∃ child,
    spawned_child healthy node_kernel example_config example_path None
      empty_world = Some child ∧
    command_line child
      = ["node"; "kernel.js"; "--connection={connection_file}"].
Proof.
  apply (argv_without_placeholder healthy node_kernel example_config
           example_path None empty_world).
  unfold node_kernel. simpl. rewrite !not_elem_of_cons.
  repeat split; try discriminate. apply not_elem_of_nil.
Defined.


(** X18, for a first piece that ends with a carriage return and a second
    one that does not begin with a line feed. *)
Lemma normalizeLineEndings_app_example :
  normalizeLineEndings (String CR EmptyString +:+ "next")
  = String LF EmptyString +:+ "next".
Proof.
  exact (normalizeLineEndings_app (String CR EmptyString) "next"
           (fun _ => eq_refl)).
Defined.

(** ** Successive launches *)




Section SuccessiveLaunches.

Context (ext : Collaborators).



End SuccessiveLaunches.

(** ** Completion requests of the editor *)

Lemma immediate_events_hint completion channels this :
  (immediate_events (hint completion channels this)
   ≤ immediate_events this
     + (if debounceNextCompletionRequest this then 0 else 1))%nat.
Proof.
  unfold immediate_events, hint. simpl.
  destruct (completion && channels); [|lia].
  rewrite filter_app, length_app, filter_cons, filter_nil.
  destruct (debounceNextCompletionRequest this); simpl; lia.
Qed.

Lemma editor_invariant steps this :
  (immediate_events (foldl editor_step this steps)
   + (if debounceNextCompletionRequest (foldl editor_step this steps)
      then 0 else 1)
   ≤ immediate_events this
     + (if debounceNextCompletionRequest this then 0 else 1)
     + presses steps)%nat.
Proof.
  revert this. induction steps as [|s steps IH]; intros this; simpl.
  - unfold presses. simpl. lia.
  - specialize (IH (editor_step this s)).
    unfold presses in *. rewrite filter_cons.
    destruct s as [completion channels|]; simpl in *.
    + pose proof (immediate_events_hint completion channels this). lia.
    + unfold immediate_events in *. simpl in *.
      destruct (debounceNextCompletionRequest this); lia.
Qed.

(** X20: whatever sequence of hint requests and presses of [Ctrl-Space]
    the editor component goes through after its construction, the
    completion events it has sent without debounce are at most as many as
    the presses of [Ctrl-Space]; a component on which the key was never
    pressed sends debounced events only. *)
Theorem immediate_completion_needs_ctrl_space steps :
  (immediate_events (editor_run steps) ≤ presses steps)%nat ∧
  (presses steps = 0%nat →
   ∀ d, d ∈ completionSubject (editor_run steps) → d = true).
Proof.
  pose proof (editor_invariant steps constructed) as Hinv.
  unfold editor_run. change (immediate_events constructed) with 0%nat in Hinv.
  simpl in Hinv.
  split; [lia|].
  intros Hnone d Hd. destruct d; [done|exfalso].
  assert (Hpos : (0 < immediate_events (foldl editor_step constructed steps))%nat).
  { unfold immediate_events.
    assert (Hin : false ∈ filter (fun d => d = false)
                    (completionSubject (foldl editor_step constructed steps)))
      by (by apply list_elem_of_filter).
    destruct (filter _ _); [by apply not_elem_of_nil in Hin | simpl; lia]. }
  lia.
Qed.

(** X20, on an example: typing asks for hints twice, then [Ctrl-Space]
    asks once more; only the last event is sent without debounce. *)
Lemma immediate_completion_example :
  completionSubject
    (editor_run [AskHint true true; AskHint true true; PressCtrlSpace;
                 AskHint true true])
  = [true; true; false] ∧
  (immediate_events
     (editor_run [AskHint true true; AskHint true true; PressCtrlSpace;
                  AskHint true true]) ≤ 1)%nat.
Proof.
  split; [reflexivity|].
  exact (proj1 (immediate_completion_needs_ctrl_space
                  [AskHint true true; AskHint true true; PressCtrlSpace;
                   AskHint true true])).
Defined.

